(** * MedAgent360 operator console: the client-side workflow controllers

    A shallow embedding of the React pages of [medagent-ui]
    ([LabReport.jsx], [Prescription.jsx], [FollowUp.jsx], [Dashboard.jsx])
    and of the service client ([utils/api.js]).

    Every [useState] cell of a component is a field of that component's
    [State] record.  An event handler is a function from the state at the
    time of the event to the state after the handler's synchronous prefix,
    together with the requests it hands to the service client.  The part of
    an [async] handler that runs after its [await] is a second function,
    run when the promise settles (React 18 batches the [set...] calls of one
    continuation into one render).  Requests that were issued are kept in a
    log, requests not yet answered are counted. *)

From Stdlib Require Import Ascii String ZArith.
From stdpp Require Import base option strings list gmap pretty.

Local Open Scope string_scope.
Local Open Scope list_scope.

(** ** JavaScript values and operators used by the pages *)

Module JS.

(** The values a JSON field can hold, as far as the pages look at them. *)
Inductive value :=
| Undefined
| Null
| Bool (b : bool)
| Num (n : Z)
| Str (s : string).

(** ToBoolean. *)
Definition truthy (v : value) : bool :=
  match v with
  | Undefined | Null => false
  | Bool b => b
  | Num n => negb (Z.eqb n 0)
  | Str s => negb (String.eqb s "")
  end.

(** [a || b] on values. *)
Definition or (a b : value) : value := if truthy a then a else b.

(** [a || b] where [a] is an optional string ([undefined] when absent)
    and [b] a string: the empty string is falsy. *)
Definition or_str (a : option string) (b : string) : string :=
  match a with
  | Some s => if String.eqb s "" then b else s
  | None => b
  end.

(** Truthiness of an optional string, as tested by [x ? .. : ..] and
    [x && ..]. *)
Definition truthy_str (a : option string) : bool :=
  match a with
  | Some s => negb (String.eqb s "")
  | None => false
  end.

(** [String.prototype.toUpperCase] restricted to ASCII letters; other
    code units are kept. *)
Definition upper_ascii (c : ascii) : ascii :=
  let n := nat_of_ascii c in
  if (97 <=? n)%nat && (n <=? 122)%nat then ascii_of_nat (n - 32) else c.

Fixpoint ascii_toUpperCase (s : string) : string :=
  match s with
  | EmptyString => EmptyString
  | String c r => String (upper_ascii c) (ascii_toUpperCase r)
  end.

End JS.

(** ** utils/api.js: the service client *)

Module Api.

(** A [File] object of the browser: its name and an identity for its
    bytes. *)
Record File := { name : string; blob : nat }.

(** One HTTP call, with the fields of its form data. *)
Inductive Request :=
| PostAnalyzeLab (file : File) (language : string)
| PostParsePrescription (file : File) (language : string)
| PostCheckinEnroll (phone name language doctor_phone : string)
| PostCheckinSend (phone name language : string)
| GetApiDashboard.

(** A default parameter [x = d]: [d] is used when the argument is
    [undefined]. *)
Definition default_param (d : string) (x : option string) : string :=
  match x with
  | Some v => v
  | None => d
  end.

Definition analyzeLabReport (file : File) (language : option string) : Request :=
  PostAnalyzeLab file (default_param "English" language).

Definition parsePrescription (file : File) (language : option string) : Request :=
  PostParsePrescription file (default_param "English" language).

Definition enrollPatient (phone name : string) (language doctorPhone : option string) : Request :=
  PostCheckinEnroll phone name (default_param "English" language) (default_param "" doctorPhone).

Definition sendCheckin (phone : string) (name language : option string) : Request :=
  PostCheckinSend phone (default_param "Patient" name) (default_param "English" language).

Definition getDashboardStats : Request := GetApiDashboard.

(** What a rejected call throws: the error of the HTTP library.  [response]
    is absent when no response was received; [data] is the parsed body. *)
Record ErrorBody := { detail : option string }.
Record Response := { status : Z; data : option ErrorBody }.
Record AxiosError := { response : option Response; message : string }.

(** [err.response?.data?.detail] *)
Definition detail_of (err : AxiosError) : option string :=
  r ← response err; b ← data r; detail b.

End Api.

Import Api.

(** The three buttons of a language strip ([LangStrip] of UI.jsx, the chat
    language bar of FollowUp.jsx) and the code each passes to its setter. *)
Inductive LangButton := BtnEn | BtnTe | BtnHi.

Definition code (b : LangButton) : string :=
  match b with
  | BtnEn => "en"
  | BtnTe => "te"
  | BtnHi => "hi"
  end.

(** ** pages/LabReport.jsx *)

Module LabReport.

Definition LANG_MAP : gmap string string :=
  {[ "en" := "English"; "te" := "Telugu"; "hi" := "Hindi" ]}.

(** The payload of a successful [/analyze-lab] call. *)
Record LabValue := {
  test : string;
  value : string;
  unit : option string;
  status : JS.value
}.

Record Stats := { total : Z; normal_count : Z; abnormal : Z }.

Record LabResult := {
  stats : option Stats;
  classified_values : option (list LabValue);
  summary : option string;
  critical_flags : option (list string)
}.

(** The [useState] cells and the file input behind [fileRef]:
    [fileRef] is [fileRef.current?.files?.[0]]. *)
Record State := {
  outputLang : string;
  result : option LabResult;
  loading : bool;
  error : option string;
  fileName : string;
  fileRef : option File
}.

(** [useState(lang)], [useState(null)], [useState(false)], ... *)
Definition init (lang : string) : State :=
  {| outputLang := lang; result := None; loading := false; error := None;
     fileName := ""; fileRef := None |}.

Definition setOutputLang (l : string) (s : State) : State :=
  {| outputLang := l; result := result s; loading := loading s;
     error := error s; fileName := fileName s; fileRef := fileRef s |}.

Definition setResult (r : option LabResult) (s : State) : State :=
  {| outputLang := outputLang s; result := r; loading := loading s;
     error := error s; fileName := fileName s; fileRef := fileRef s |}.

Definition setLoading (b : bool) (s : State) : State :=
  {| outputLang := outputLang s; result := result s; loading := b;
     error := error s; fileName := fileName s; fileRef := fileRef s |}.

Definition setError (e : option string) (s : State) : State :=
  {| outputLang := outputLang s; result := result s; loading := loading s;
     error := e; fileName := fileName s; fileRef := fileRef s |}.

Definition setFileName (n : string) (s : State) : State :=
  {| outputLang := outputLang s; result := result s; loading := loading s;
     error := error s; fileName := n; fileRef := fileRef s |}.

(** The browser replaces the selection of the file input. *)
Definition setFiles (f : option File) (s : State) : State :=
  {| outputLang := outputLang s; result := result s; loading := loading s;
     error := error s; fileName := fileName s; fileRef := f |}.

(** [handleUpload], up to its [await]: [file] is [e.target.files?.[0]]. *)
Definition handleUpload (file : option File) (s : State) : State * list Request :=
  match file with
  | None => (s, [])
  | Some f =>
      (setResult None (setError None (setLoading true (setFileName (name f) s))),
       [analyzeLabReport f (LANG_MAP !! outputLang s)])
  end.

(** [handleReanalyze], up to its [await]. *)
Definition handleReanalyze (s : State) : State * list Request :=
  match fileRef s with
  | None => (s, [])
  | Some f =>
      (setError None (setLoading true s),
       [analyzeLabReport f (LANG_MAP !! outputLang s)])
  end.

(** After the [await] of either handler, when the call returned [data]:
    [setResult(data)], then the [finally] block. *)
Definition resolved (data : LabResult) (s : State) : State :=
  setLoading false (setResult (Some data) s).

(** After the [await] of either handler, when the call threw [err]: the
    [catch] block, then the [finally] block. *)
Definition rejected (err : AxiosError) (s : State) : State :=
  setLoading false
    (setError
       (Some (JS.or_str (Some (JS.or_str (detail_of err) (message err)))
                        "Analysis failed")) s).

(** The [status] prop of a [LabRow]. *)
Inductive Severity := normal | high | critical.

Section GetStatus.

(** [String.prototype.toUpperCase] is a builtin of the language and is
    taken as given; [JS.ascii_toUpperCase] is its restriction to
    ASCII. *)
Variable toUpperCase : string → string.

(** [v.toUpperCase()]: a method call on a value that is not a string
    raises a TypeError, rendered as [None]. *)
Definition call_toUpperCase (v : JS.value) : option string :=
  match v with
  | JS.Str s => Some (toUpperCase s)
  | _ => None
  end.

(** The two [if]s and the final [return] of [getStatus], once [s] is
    computed. *)
Definition status_of_upper (s : string) : Severity :=
  if bool_decide (s = "CRITICAL") || bool_decide (s = "HIGH")
  then (if bool_decide (s = "CRITICAL") then critical else high)
  else if bool_decide (s = "LOW") then high
  else normal.

(** [getStatus(val)] *)
Definition getStatus (val : LabValue) : option Severity :=
  s ← call_toUpperCase (JS.or (status val) (JS.Str ""));
  Some (status_of_upper s).

(** The statuses of the rows rendered for a result:
    [result.classified_values.map(v => <LabRow status={getStatus(v)} />)]. *)
Definition rowStatuses (r : LabResult) : list (option Severity) :=
  match classified_values r with
  | Some vs => getStatus <$> vs
  | None => []
  end.

End GetStatus.

(** The conditions under which the blocks of the page are rendered. *)
Definition showUploadZone (s : State) : bool :=
  negb (bool_decide (is_Some (result s))) && negb (loading s).
Definition showLoading (s : State) : bool := loading s.
Definition showError (s : State) : bool := JS.truthy_str (error s).
Definition showResults (s : State) : bool :=
  bool_decide (is_Some (result s)) && negb (loading s).

(** What can happen to the page: the user picks a file (or dismisses the
    dialog), clicks a button of the result panel, or a call settles. *)
Inductive Event :=
| FileChange (file : option File)
| ClickLang (b : LangButton)
| ClickDownload
| ClickReanalyze
| ClickAlertDoctor
| Resolved (data : LabResult)
| Rejected (err : AxiosError).

(** The page with its environment: the requests issued so far, oldest
    first, and the number of calls not yet settled. *)
Record Sys := { comp : State; log : list Request; inflight : nat }.

Definition start (lang : string) : Sys :=
  {| comp := init lang; log := []; inflight := 0 |}.

(** A handler ran: record what it issued. *)
Definition issue (sys : Sys) (out : State * list Request) : Sys :=
  {| comp := out.1; log := log sys ++ out.2;
     inflight := length out.2 + inflight sys |}.

(** A call settled and its continuation ran. *)
Definition settle (sys : Sys) (s : State) : Sys :=
  {| comp := s; log := log sys; inflight := pred (inflight sys) |}.

(** An event can occur when its control is rendered (the file input is
    always there, the buttons of the result panel only with the panel),
    a call can settle when one is in flight. *)
Definition enabled (sys : Sys) (e : Event) : bool :=
  match e with
  | FileChange _ => true
  | ClickLang _ | ClickDownload | ClickReanalyze | ClickAlertDoctor =>
      showResults (comp sys)
  | Resolved _ | Rejected _ => negb (Nat.eqb (inflight sys) 0)
  end.

Definition react (sys : Sys) (e : Event) : Sys :=
  match e with
  | FileChange f => issue sys (handleUpload f (setFiles f (comp sys)))
  | ClickLang b => issue sys (setOutputLang (code b) (comp sys), [])
  | ClickDownload | ClickAlertDoctor => sys
  | ClickReanalyze => issue sys (handleReanalyze (comp sys))
  | Resolved data => settle sys (resolved data (comp sys))
  | Rejected err => settle sys (rejected err (comp sys))
  end.

Definition step (sys : Sys) (e : Event) : option Sys :=
  if enabled sys e then Some (react sys e) else None.

Fixpoint run (sys : Sys) (es : list Event) : option Sys :=
  match es with
  | [] => Some sys
  | e :: es' => sys' ← step sys e; run sys' es'
  end.

(** The long-form name sent for an output language code:
    [LANG_MAP[outputLang]] passed to a parameter with default
    ['English']. *)
Definition requestLanguage (l : string) : string :=
  default_param "English" (LANG_MAP !! l).

(** The severity table as the specification words it: the status string,
    upper-cased, is looked up; anything not listed is normal. *)
Definition spec_severity (upper : string) : Severity :=
  if bool_decide (upper = "CRITICAL") then critical
  else if bool_decide (upper = "HIGH") then high
  else if bool_decide (upper = "LOW") then high
  else normal.

(** The workflow states of the specification, read off the cells.  The
    cells allow a fifth combination, a failure message next to a result. *)
Inductive Phase := Idle | Pending | Succeeded | Failed | FailedWithResult.

Definition phase (s : State) : Phase :=
  if loading s then Pending
  else match error s, result s with
       | None, None => Idle
       | None, Some _ => Succeeded
       | Some _, None => Failed
       | Some _, Some _ => FailedWithResult
       end.

(** Some cell shows that a file was selected before. *)
Definition touched (s : State) : bool :=
  loading s || bool_decide (is_Some (result s)) || bool_decide (is_Some (error s)).

(** The code of the button clicked last, [l] if none was. *)
Definition lastLang (l : string) (bs : list LangButton) : string :=
  default l (last (code <$> bs)).

(** The page does not keep the user from selecting a file while a call is
    in flight.  A run is calm when every selection of a file finds none in
    flight. *)
Definition calm (sys : Sys) (e : Event) : bool :=
  match e with
  | FileChange (Some _) => Nat.eqb (inflight sys) 0
  | _ => true
  end.

Fixpoint calm_run (sys : Sys) (es : list Event) : bool :=
  match es with
  | [] => true
  | e :: es' =>
      calm sys e
      && match step sys e with
         | Some sys' => calm_run sys' es'
         | None => true
         end
  end.

(** The three blocks of the page body of which the render shows one. *)
Definition bodyBlocks (s : State) : list bool :=
  [showUploadZone s; showLoading s; showResults s].



End LabReport.

(** ** pages/Prescription.jsx *)

Module Prescription.

Definition LANG_MAP : gmap string string :=
  {[ "en" := "English"; "te" := "Telugu"; "hi" := "Hindi" ]}.

(** The payload of a successful [/parse-prescription] call. *)
Record Medicine := {
  medicine : string;
  dosage : option string;
  translated_instruction : option string
}.

Record RxResult := {
  ocr_text : option string;
  medicines : option (list Medicine)
}.

Record State := {
  outputLang : string;
  result : option RxResult;
  loading : bool;
  error : option string;
  fileName : string;
  fileRef : option File
}.

Definition init (lang : string) : State :=
  {| outputLang := lang; result := None; loading := false; error := None;
     fileName := ""; fileRef := None |}.

Definition setOutputLang (l : string) (s : State) : State :=
  {| outputLang := l; result := result s; loading := loading s;
     error := error s; fileName := fileName s; fileRef := fileRef s |}.

Definition setResult (r : option RxResult) (s : State) : State :=
  {| outputLang := outputLang s; result := r; loading := loading s;
     error := error s; fileName := fileName s; fileRef := fileRef s |}.

Definition setLoading (b : bool) (s : State) : State :=
  {| outputLang := outputLang s; result := result s; loading := b;
     error := error s; fileName := fileName s; fileRef := fileRef s |}.

Definition setError (e : option string) (s : State) : State :=
  {| outputLang := outputLang s; result := result s; loading := loading s;
     error := e; fileName := fileName s; fileRef := fileRef s |}.

Definition setFileName (n : string) (s : State) : State :=
  {| outputLang := outputLang s; result := result s; loading := loading s;
     error := error s; fileName := n; fileRef := fileRef s |}.

Definition setFiles (f : option File) (s : State) : State :=
  {| outputLang := outputLang s; result := result s; loading := loading s;
     error := error s; fileName := fileName s; fileRef := f |}.

(** [handleUpload], up to its [await]. *)
Definition handleUpload (file : option File) (s : State) : State * list Request :=
  match file with
  | None => (s, [])
  | Some f =>
      (setResult None (setError None (setLoading true (setFileName (name f) s))),
       [parsePrescription f (LANG_MAP !! outputLang s)])
  end.

Definition resolved (data : RxResult) (s : State) : State :=
  setLoading false (setResult (Some data) s).

Definition rejected (err : AxiosError) (s : State) : State :=
  setLoading false
    (setError
       (Some (JS.or_str (Some (JS.or_str (detail_of err) (message err)))
                        "Parsing failed")) s).

(** The [onClick] of "Try Again": [setError(null); setResult(null)]. *)
Definition tryAgain (s : State) : State := setResult None (setError None s).

(** The [onClick] of "Upload Another": [setResult(null); setError(null)]. *)
Definition uploadAnother (s : State) : State := setError None (setResult None s).

Definition showUploadZone (s : State) : bool :=
  negb (bool_decide (is_Some (result s))) && negb (loading s)
  && negb (JS.truthy_str (error s)).
Definition showLoading (s : State) : bool := loading s.
Definition showError (s : State) : bool := JS.truthy_str (error s).
Definition showResults (s : State) : bool :=
  bool_decide (is_Some (result s)) && negb (loading s).

Inductive Event :=
| FileChange (file : option File)
| ClickLang (b : LangButton)
| ClickTryAgain
| ClickUploadAnother
| Resolved (data : RxResult)
| Rejected (err : AxiosError).

Record Sys := { comp : State; log : list Request; inflight : nat }.

Definition start (lang : string) : Sys :=
  {| comp := init lang; log := []; inflight := 0 |}.

Definition issue (sys : Sys) (out : State * list Request) : Sys :=
  {| comp := out.1; log := log sys ++ out.2;
     inflight := length out.2 + inflight sys |}.

Definition settle (sys : Sys) (s : State) : Sys :=
  {| comp := s; log := log sys; inflight := pred (inflight sys) |}.

(** "Try Again" sits in the error block, "Upload Another" and the language
    strip in the result panel. *)
Definition enabled (sys : Sys) (e : Event) : bool :=
  match e with
  | FileChange _ => true
  | ClickLang _ | ClickUploadAnother => showResults (comp sys)
  | ClickTryAgain => showError (comp sys)
  | Resolved _ | Rejected _ => negb (Nat.eqb (inflight sys) 0)
  end.

Definition react (sys : Sys) (e : Event) : Sys :=
  match e with
  | FileChange f => issue sys (handleUpload f (setFiles f (comp sys)))
  | ClickLang b => issue sys (setOutputLang (code b) (comp sys), [])
  | ClickTryAgain => issue sys (tryAgain (comp sys), [])
  | ClickUploadAnother => issue sys (uploadAnother (comp sys), [])
  | Resolved data => settle sys (resolved data (comp sys))
  | Rejected err => settle sys (rejected err (comp sys))
  end.

Definition step (sys : Sys) (e : Event) : option Sys :=
  if enabled sys e then Some (react sys e) else None.

Fixpoint run (sys : Sys) (es : list Event) : option Sys :=
  match es with
  | [] => Some sys
  | e :: es' => sys' ← step sys e; run sys' es'
  end.

(** A run in which every selection of a file finds no call in flight. *)
Definition calm (sys : Sys) (e : Event) : bool :=
  match e with
  | FileChange (Some _) => Nat.eqb (inflight sys) 0
  | _ => true
  end.

Fixpoint calm_run (sys : Sys) (es : list Event) : bool :=
  match es with
  | [] => true
  | e :: es' =>
      calm sys e
      && match step sys e with
         | Some sys' => calm_run sys' es'
         | None => true
         end
  end.

Section OcrPreview.

(** The code units of a string, whatever they are. *)
Context {A : Type}.

(** [result.ocr_text.substring(0, 300)] followed by
    [result.ocr_text.length > 300 ? '...' : '']; [dot] is the code unit of
    the full stop. *)
Definition ocrPreview (dot : A) (ocr_text : list A) : list A :=
  take 300 ocr_text
  ++ (if (300 <? length ocr_text)%nat then [dot; dot; dot] else []).

End OcrPreview.

End Prescription.

(** ** pages/FollowUp.jsx

    The chat form ([handleSend]) only clears its own text cell and is left
    out. *)

Module FollowUp.

(** [checkinStatus] and [enrollStatus] hold [{ ok, msg }]. *)
Record Status := { ok : bool; msg : string }.

Record EnrollForm := {
  phone : string;
  name : string;
  language : string;
  doctorPhone : string
}.

(** The payload of a successful [/checkin/send] call. *)
Record CheckinResult := { message_sid : option string }.

Record State := {
  chatLang : string;
  inputText : string;
  checkinStatus : option Status;
  checkinLoading : bool;
  enrollForm : EnrollForm;
  enrollStatus : option Status
}.

Definition init (lang : string) : State :=
  {| chatLang := lang; inputText := ""; checkinStatus := None;
     checkinLoading := false;
     enrollForm := {| phone := ""; name := ""; language := "English";
                      doctorPhone := "" |};
     enrollStatus := None |}.

Definition setChatLang (l : string) (s : State) : State :=
  {| chatLang := l; inputText := inputText s;
     checkinStatus := checkinStatus s; checkinLoading := checkinLoading s;
     enrollForm := enrollForm s; enrollStatus := enrollStatus s |}.

Definition setInputText (t : string) (s : State) : State :=
  {| chatLang := chatLang s; inputText := t;
     checkinStatus := checkinStatus s; checkinLoading := checkinLoading s;
     enrollForm := enrollForm s; enrollStatus := enrollStatus s |}.

Definition setCheckinStatus (c : option Status) (s : State) : State :=
  {| chatLang := chatLang s; inputText := inputText s;
     checkinStatus := c; checkinLoading := checkinLoading s;
     enrollForm := enrollForm s; enrollStatus := enrollStatus s |}.

Definition setCheckinLoading (b : bool) (s : State) : State :=
  {| chatLang := chatLang s; inputText := inputText s;
     checkinStatus := checkinStatus s; checkinLoading := b;
     enrollForm := enrollForm s; enrollStatus := enrollStatus s |}.

Definition setEnrollForm (f : EnrollForm → EnrollForm) (s : State) : State :=
  {| chatLang := chatLang s; inputText := inputText s;
     checkinStatus := checkinStatus s; checkinLoading := checkinLoading s;
     enrollForm := f (enrollForm s); enrollStatus := enrollStatus s |}.

Definition setEnrollStatus (c : option Status) (s : State) : State :=
  {| chatLang := chatLang s; inputText := inputText s;
     checkinStatus := checkinStatus s; checkinLoading := checkinLoading s;
     enrollForm := enrollForm s; enrollStatus := c |}.

(** The third argument of the [sendCheckin] call. *)
Definition checkinLanguage (chatLang : string) : string :=
  if bool_decide (chatLang = "te") then "Telugu"
  else if bool_decide (chatLang = "hi") then "Hindi"
  else "English".

(** [handleTriggerCheckin], up to its [await]. *)
Definition handleTriggerCheckin (s : State) : State * list Request :=
  (setCheckinStatus None (setCheckinLoading true s),
   [sendCheckin "+919999999999" (Some "Ravi Kumar")
                (Some (checkinLanguage (chatLang s)))]).

(** The message of the [try] branch. *)
Definition sentMessage (r : CheckinResult) : string :=
  if JS.truthy_str (message_sid r)
  then "✅ Check-in sent (SID: " +:+ default "" (message_sid r) +:+ ")"
  else "✅ Check-in triggered (Twilio not configured — demo mode)".

Definition checkinResolved (r : CheckinResult) (s : State) : State :=
  setCheckinLoading false
    (setCheckinStatus (Some {| ok := true; msg := sentMessage r |}) s).

(** The message of the [catch] branch. *)
Definition failedMessage (err : AxiosError) : string :=
  let detail := JS.or_str (detail_of err) (message err) in
  "⚠️ " +:+ JS.or_str (Some detail)
                      "Check-in failed — Twilio credentials may be missing".

Definition checkinRejected (err : AxiosError) (s : State) : State :=
  setCheckinLoading false
    (setCheckinStatus (Some {| ok := false; msg := failedMessage err |}) s).

(** [handleEnroll], up to its [await]. *)
Definition handleEnroll (s : State) : State * list Request :=
  (s, [enrollPatient (phone (enrollForm s)) (name (enrollForm s))
                     (Some (language (enrollForm s)))
                     (Some (doctorPhone (enrollForm s)))]).

Definition enrollResolved (s : State) : State :=
  setEnrollStatus
    (Some {| ok := true; msg := "✅ Patient enrolled successfully" |}) s.

Definition enrollRejected (err : AxiosError) (s : State) : State :=
  setEnrollStatus
    (Some {| ok := false;
             msg := "❌ " +:+ JS.or_str (detail_of err) (message err) |}) s.

(** The [onChange] of the two inputs of the enrollment form. *)
Definition typePhone (v : string) (f : EnrollForm) : EnrollForm :=
  {| phone := v; name := name f; language := language f;
     doctorPhone := doctorPhone f |}.

Definition typeName (v : string) (f : EnrollForm) : EnrollForm :=
  {| phone := phone f; name := v; language := language f;
     doctorPhone := doctorPhone f |}.

Inductive Event :=
| ClickChatLang (b : LangButton)
| TypeInput (v : string)
| ClickTrigger
| CheckinResolved (r : CheckinResult)
| CheckinRejected (err : AxiosError)
| TypePhone (v : string)
| TypeName (v : string)
| SubmitEnroll
| EnrollResolved
| EnrollRejected (err : AxiosError).

(** The two kinds of call have different continuations and are counted
    apart. *)
Record Sys := {
  comp : State;
  log : list Request;
  checkins : nat;
  enrolls : nat
}.

Definition start (lang : string) : Sys :=
  {| comp := init lang; log := []; checkins := 0; enrolls := 0 |}.

(** The trigger button is [disabled] while [checkinLoading]; the form can
    always be submitted. *)
Definition enabled (sys : Sys) (e : Event) : bool :=
  match e with
  | ClickTrigger => negb (checkinLoading (comp sys))
  | CheckinResolved _ | CheckinRejected _ => negb (Nat.eqb (checkins sys) 0)
  | EnrollResolved | EnrollRejected _ => negb (Nat.eqb (enrolls sys) 0)
  | _ => true
  end.

Definition react (sys : Sys) (e : Event) : Sys :=
  let put s := {| comp := s; log := log sys; checkins := checkins sys;
                  enrolls := enrolls sys |} in
  match e with
  | ClickChatLang b => put (setChatLang (code b) (comp sys))
  | TypeInput v => put (setInputText v (comp sys))
  | TypePhone v => put (setEnrollForm (typePhone v) (comp sys))
  | TypeName v => put (setEnrollForm (typeName v) (comp sys))
  | ClickTrigger =>
      let out := handleTriggerCheckin (comp sys) in
      {| comp := out.1; log := log sys ++ out.2;
         checkins := length out.2 + checkins sys; enrolls := enrolls sys |}
  | CheckinResolved r =>
      {| comp := checkinResolved r (comp sys); log := log sys;
         checkins := pred (checkins sys); enrolls := enrolls sys |}
  | CheckinRejected err =>
      {| comp := checkinRejected err (comp sys); log := log sys;
         checkins := pred (checkins sys); enrolls := enrolls sys |}
  | SubmitEnroll =>
      let out := handleEnroll (comp sys) in
      {| comp := out.1; log := log sys ++ out.2;
         checkins := checkins sys; enrolls := length out.2 + enrolls sys |}
  | EnrollResolved =>
      {| comp := enrollResolved (comp sys); log := log sys;
         checkins := checkins sys; enrolls := pred (enrolls sys) |}
  | EnrollRejected err =>
      {| comp := enrollRejected err (comp sys); log := log sys;
         checkins := checkins sys; enrolls := pred (enrolls sys) |}
  end.

Definition step (sys : Sys) (e : Event) : option Sys :=
  if enabled sys e then Some (react sys e) else None.

Fixpoint run (sys : Sys) (es : list Event) : option Sys :=
  match es with
  | [] => Some sys
  | e :: es' => sys' ← step sys e; run sys' es'
  end.

(** The events of the check-in trigger and those of the enrollment
    form. *)
Definition checkinEvent (e : Event) : bool :=
  match e with
  | ClickTrigger | CheckinResolved _ | CheckinRejected _ => true
  | _ => false
  end.

Definition enrollEvent (e : Event) : bool :=
  match e with
  | TypePhone _ | TypeName _ | SubmitEnroll | EnrollResolved
  | EnrollRejected _ => true
  | _ => false
  end.

(** A request of the follow-up page: the fixed check-in in one of the
    three long-form languages, or an enrollment in English without a doctor
    phone. *)
Definition followup_request (r : Request) : Prop :=
  match r with
  | PostCheckinSend p n l =>
      p = "+919999999999" ∧ n = "Ravi Kumar"
      ∧ l ∈ ["English"; "Telugu"; "Hindi"]
  | PostCheckinEnroll _ _ l d => l = "English" ∧ d = ""
  | _ => False
  end.

End FollowUp.

(** ** pages/Dashboard.jsx *)

Module Dashboard.

(** The snapshot of [/api/dashboard]. *)
Record DashboardStats := {
  lab_count : Z;
  rx_count : Z;
  alert_count : Z;
  recovery_day : Z
}.

(** The page has the one cell [stats]; it has no cell for an error. *)
Record State := { stats : DashboardStats }.

Definition init : State :=
  {| stats := {| lab_count := 24; rx_count := 4; alert_count := 3;
                 recovery_day := 5 |} |}.

(** The effect run once after the first render, up to the settling of the
    promise. *)
Definition effect (s : State) : State * list Request :=
  (s, [getDashboardStats]).

(** [.then(data => setStats(data))] *)
Definition resolved (data : DashboardStats) (s : State) : State :=
  {| stats := data |}.

(** [.catch(() => { })] *)
Definition rejected (err : AxiosError) (s : State) : State := s.

(** The values handed to the four [StatCard]s; the last one is shown
    after the text "Day ". *)
Definition displayed (s : State) : Z * Z * Z * Z :=
  (lab_count (stats s), rx_count (stats s), alert_count (stats s),
   recovery_day (stats s)).

Inductive Event :=
| Mount
| Resolved (data : DashboardStats)
| Rejected (err : AxiosError).

Record Sys := { comp : State; mounted : bool; log : list Request; inflight : nat }.

Definition start : Sys :=
  {| comp := init; mounted := false; log := []; inflight := 0 |}.

Definition enabled (sys : Sys) (e : Event) : bool :=
  match e with
  | Mount => negb (mounted sys)
  | Resolved _ | Rejected _ => negb (Nat.eqb (inflight sys) 0)
  end.

Definition react (sys : Sys) (e : Event) : Sys :=
  match e with
  | Mount =>
      let out := effect (comp sys) in
      {| comp := out.1; mounted := true; log := log sys ++ out.2;
         inflight := length out.2 + inflight sys |}
  | Resolved data =>
      {| comp := resolved data (comp sys); mounted := mounted sys;
         log := log sys; inflight := pred (inflight sys) |}
  | Rejected err =>
      {| comp := rejected err (comp sys); mounted := mounted sys;
         log := log sys; inflight := pred (inflight sys) |}
  end.

Definition step (sys : Sys) (e : Event) : option Sys :=
  if enabled sys e then Some (react sys e) else None.

Fixpoint run (sys : Sys) (es : list Event) : option Sys :=
  match es with
  | [] => Some sys
  | e :: es' => sys' ← step sys e; run sys' es'
  end.

End Dashboard.

(** ** utils/api.js: the calls made with GET

    A GET call is its path relative to the base URL. *)

Module ApiGet.

Definition getAlerts : string := "/api/alerts".
Definition getRecoveryData : string := "/api/recovery".
Definition getCheckinAlerts : string := "/checkin/alerts".
Definition getHealth : string := "/health".

(** [encodeURIComponent] keeps the letters, the digits and
    [- _ . ! ~ * ' ( )]. *)
Definition unreserved (c : ascii) : bool :=
  let n := nat_of_ascii c in
  ((65 <=? n) && (n <=? 90) || (97 <=? n) && (n <=? 122)
   || (48 <=? n) && (n <=? 57))%nat
  || bool_decide (c ∈ ["-"; "_"; "."; "!"; "~"; "*"; "'"; "("; ")"]%char).

(** An upper-case hexadecimal digit. *)
Definition hexDigit (n : nat) : ascii :=
  if (n <? 10)%nat then ascii_of_nat (48 + n) else ascii_of_nat (55 + n).

(** [encodeURIComponent] on a string held as its UTF-8 bytes: every byte
    that is not kept becomes a percent sign and two digits. *)
Fixpoint encodeURIComponent (s : string) : string :=
  match s with
  | EmptyString => EmptyString
  | String c r =>
      if unreserved c then String c (encodeURIComponent r)
      else String "%" (String (hexDigit (nat_of_ascii c / 16))
                         (String (hexDigit (nat_of_ascii c mod 16))
                            (encodeURIComponent r)))
  end.

(** The characters that structure a URL. *)
Definition delimiters : list ascii :=
  ["/"; "?"; "#"; "&"; "="; "+"; " "; ":"; "@"]%char.


End ApiGet.

(** ** pages/Alerts.jsx *)

Module Alerts.

Record AlertItem := {
  type : string;
  title : string;
  sub : string;
  time : string
}.

(** The payload of [/api/alerts]; [data_alerts] is [data.alerts],
    [None] when the object has no such key. *)
Record AlertsData := { data_alerts : option (list AlertItem) }.

(** The cell [alerts]; [None] when it holds [undefined]. *)
Record State := { alerts : option (list AlertItem) }.

Definition init : State :=
  {| alerts := Some
       [ {| type := "critical"; title := "High Blood Sugar Detected";
            sub := "Lab result: 142 mg/dL"; time := "2 hours ago" |};
         {| type := "warning"; title := "Missed Check-in";
            sub := "Morning symptom check"; time := "5 hours ago" |};
         {| type := "info"; title := "New Prescription Added";
            sub := "Metformin 500mg"; time := "1 day ago" |} ] |}.

(** [.then(data => setAlerts(data.alerts)).catch(() => { })] when the call
    resolved; [data] is [None] for a [null] body, on which [data.alerts]
    throws and the [catch] swallows the exception. *)
Definition resolved (data : option AlertsData) (s : State) : State :=
  match data with
  | Some d => {| alerts := data_alerts d |}
  | None => s
  end.

(** The same chain when the call was rejected. *)
Definition rejected (err : AxiosError) (s : State) : State := s.

(** The render: the count of the panel header, [alerts.length], and the
    items of the list, [alerts.map(...)].  Both throw a TypeError, [None],
    on [undefined]. *)
Definition render (s : State) : option (nat * list AlertItem) :=
  l ← alerts s; Some (length l, l).

Inductive Event :=
| Mount
| Resolved (data : option AlertsData)
| Rejected (err : AxiosError).

Record Sys := { comp : State; mounted : bool; log : list string; inflight : nat }.

Definition start : Sys :=
  {| comp := init; mounted := false; log := []; inflight := 0 |}.

Definition enabled (sys : Sys) (e : Event) : bool :=
  match e with
  | Mount => negb (mounted sys)
  | Resolved _ | Rejected _ => negb (Nat.eqb (inflight sys) 0)
  end.

Definition react (sys : Sys) (e : Event) : Sys :=
  match e with
  | Mount =>
      {| comp := comp sys; mounted := true;
         log := log sys ++ [ApiGet.getAlerts]; inflight := S (inflight sys) |}
  | Resolved data =>
      {| comp := resolved data (comp sys); mounted := mounted sys;
         log := log sys; inflight := pred (inflight sys) |}
  | Rejected err =>
      {| comp := rejected err (comp sys); mounted := mounted sys;
         log := log sys; inflight := pred (inflight sys) |}
  end.

Definition step (sys : Sys) (e : Event) : option Sys :=
  if enabled sys e then Some (react sys e) else None.

Fixpoint run (sys : Sys) (es : list Event) : option Sys :=
  match es with
  | [] => Some sys
  | e :: es' => sys' ← step sys e; run sys' es'
  end.

End Alerts.

(** ** pages/Recovery.jsx: the day timeline

    The vitals are only rendered; they are left out. *)

Module Recovery.

(** The snapshot of [/api/recovery]; a field is [None] when the object has
    no such key.  The days are whole numbers. *)
Record RecoveryData := {
  current_day : option Z;
  total_days : option Z
}.

(** The cell [recoveryData], [None] for its initial [null]. *)
Record State := { recoveryData : option RecoveryData }.

Definition init : State := {| recoveryData := None |}.

(** [.then(data => setRecoveryData(data))] *)
Definition resolved (data : RecoveryData) (s : State) : State :=
  {| recoveryData := Some data |}.

(** [.catch(() => { })] *)
Definition rejected (err : AxiosError) (s : State) : State := s.

(** [x || d] on an optional number: [undefined] and 0 are falsy. *)
Definition or_num (x : option Z) (d : Z) : Z :=
  match x with
  | Some n => if Z.eqb n 0 then d else n
  | None => d
  end.

(** [recoveryData?.current_day || 5] *)
Definition currentDay (s : State) : Z :=
  or_num (recoveryData s ≫= current_day) 5.

(** [recoveryData?.total_days || 7] *)
Definition totalDays (s : State) : Z :=
  or_num (recoveryData s ≫= total_days) 7.

(** The class of a day's dot. *)
Inductive DayClass := Done | Today | Future.

(** The callback of [Array.from] at index [i]: the day and the class of
    its dot, [isDone ? 'done' : isToday ? 'today' : 'future']. *)
Definition dayPill (currentDay : Z) (i : nat) : Z * DayClass :=
  let day := (Z.of_nat i + 1)%Z in
  let isDone := (day <? currentDay)%Z in
  let isToday := (day =? currentDay)%Z in
  (day, if isDone then Done else if isToday then Today else Future).

(** [Array.from({ length: totalDays }, ...)]: a negative length counts as
    0; a length above 2^32 - 1 raises a RangeError, [None]. *)
Definition dayPills (s : State) : option (list (Z * DayClass)) :=
  if (4294967295 <? totalDays s)%Z then None
  else Some (dayPill (currentDay s) <$> seq 0 (Z.to_nat (totalDays s))).

(** The order of the classes along the timeline. *)
Definition rank (c : DayClass) : nat :=
  match c with
  | Done => 0
  | Today => 1
  | Future => 2
  end.

End Recovery.

(** ** App.jsx: the page key of a route *)

Module App.

(** The [if]/[else if] chain of [AppLayout]. *)
Definition activePageKey (path : string) : string :=
  if bool_decide (path = "/lab-report") then "lab"
  else if bool_decide (path = "/prescription") then "prescription"
  else if bool_decide (path = "/followup") then "followup"
  else if bool_decide (path = "/alerts") then "alerts"
  else if bool_decide (path = "/recovery") then "recovery"
  else "dashboard".

(** The [path]s of the [Route]s. *)
Definition routes : list string :=
  ["/"; "/lab-report"; "/prescription"; "/followup"; "/alerts"; "/recovery"].

End App.

(** ** Sample data: the scenarios of the specification *)

Module Samples.

Definition report_pdf : File := {| name := "report.pdf"; blob := 1 |}.

Definition glucose : LabReport.LabValue :=
  {| LabReport.test := "Glucose"; LabReport.value := "142";
     LabReport.unit := None; LabReport.status := JS.Str "HIGH" |}.

Definition unlabelled : LabReport.LabValue :=
  {| LabReport.test := "Urea"; LabReport.value := "30";
     LabReport.unit := Some "mg/dL"; LabReport.status := JS.Undefined |}.

Definition glucose_report : LabReport.LabResult :=
  {| LabReport.stats :=
       Some {| LabReport.total := 1; LabReport.normal_count := 0;
               LabReport.abnormal := 1 |};
     LabReport.classified_values := Some [glucose];
     LabReport.summary := None;
     LabReport.critical_flags := None |}.

Definition rx_scan : Prescription.RxResult :=
  {| Prescription.ocr_text := Some "Metformin 500mg";
     Prescription.medicines := None |}.

(** No response was received. *)
Definition network_down : AxiosError :=
  {| response := None; message := "Network Error" |}.

(** HTTP 400 with a structured detail. *)
Definition twilio_400 : AxiosError :=
  {| response :=
       Some {| status := 400;
               data := Some {| detail := Some "Twilio not configured" |} |};
     message := "Request failed with status code 400" |}.

(** A lab page showing the result of [report.pdf]. *)
Definition lab_done : LabReport.Sys :=
  {| LabReport.comp :=
       LabReport.resolved glucose_report
         (LabReport.handleUpload (Some report_pdf)
            (LabReport.setFiles (Some report_pdf) (LabReport.init "en"))).1;
     LabReport.log := [PostAnalyzeLab report_pdf "English"];
     LabReport.inflight := 0 |}.

(** A prescription page showing a result, and one showing a failure. *)
Definition rx_done : Prescription.Sys :=
  {| Prescription.comp :=
       Prescription.resolved rx_scan
         (Prescription.handleUpload (Some report_pdf)
            (Prescription.setFiles (Some report_pdf) (Prescription.init "en"))).1;
     Prescription.log := [PostParsePrescription report_pdf "English"];
     Prescription.inflight := 0 |}.

Definition rx_failed : Prescription.Sys :=
  {| Prescription.comp :=
       Prescription.rejected network_down
         (Prescription.handleUpload (Some report_pdf)
            (Prescription.setFiles (Some report_pdf) (Prescription.init "en"))).1;
     Prescription.log := [PostParsePrescription report_pdf "English"];
     Prescription.inflight := 0 |}.

(** The lab page after a failed re-analyze and a dismissed file dialog. *)
Definition lab_failed_again : LabReport.Sys :=
  {| LabReport.comp :=
       LabReport.setFiles None
         (LabReport.rejected network_down
            (LabReport.handleReanalyze (LabReport.comp lab_done)).1);
     LabReport.log := [PostAnalyzeLab report_pdf "English";
                       PostAnalyzeLab report_pdf "English"];
     LabReport.inflight := 0 |}.

End Samples.

(** * Properties *)

(** ** The severity of a classified value *)

Module LabRows.
Import LabReport Samples.

Lemma status_of_upper_spec (u : string) : status_of_upper u = spec_severity u.
Proof.
  unfold status_of_upper, spec_severity.
  destruct (bool_decide (u = "CRITICAL")); simpl; [done|].
  destruct (bool_decide (u = "HIGH")); done.
Qed.

(** C1: [getStatus] is a total function of the entry's status.  When the
    status is a string [s], the result is the severity the table gives for
    [toUpperCase s]: critical for CRITICAL, high for HIGH and for LOW,
    normal for anything else; in particular it is one of the three
    severities and never an exception.  A missing status ([undefined],
    [null], or any other falsy value) gives normal.  (A truthy status that
    is not a string has no [toUpperCase] method.) *)
Theorem getStatus_mapping (toUpperCase : string → string)
    (Hempty : toUpperCase "" = "") (val : LabValue) :
  getStatus toUpperCase val =
    match status val with
    | JS.Str s => Some (spec_severity (toUpperCase s))
    | v => if JS.truthy v then None else Some normal
    end.
Proof.
  unfold getStatus, JS.or.
  destruct (status val) as [| |b|n|s] eqn:Hst; simpl.
  - by rewrite status_of_upper_spec, Hempty.
  - by rewrite status_of_upper_spec, Hempty.
  - destruct b; simpl; [done|]. by rewrite status_of_upper_spec, Hempty.
  - destruct (Z.eqb n 0); simpl; [|done]. by rewrite status_of_upper_spec, Hempty.
  - destruct (String.eqb s "") eqn:Hs; simpl.
    + apply String.eqb_eq in Hs as ->. by rewrite status_of_upper_spec.
    + by rewrite status_of_upper_spec.
Qed.

Lemma getStatus_mapping_witness :
  getStatus JS.ascii_toUpperCase glucose = Some high
  ∧ getStatus JS.ascii_toUpperCase unlabelled = Some normal.
Proof.
  split.
  - exact (getStatus_mapping JS.ascii_toUpperCase eq_refl glucose).
  - exact (getStatus_mapping JS.ascii_toUpperCase eq_refl unlabelled).
Defined.

(** With the ASCII upper-casing the mapping ignores the case of the
    status. *)
Example getStatus_ignores_case :
  (λ t, getStatus JS.ascii_toUpperCase
          {| test := "T"; value := "1"; unit := None; status := JS.Str t |})
  <$> ["critical"; "Critical"; "high"; "HIGH"; "low"; "Low"; "normal"; "n/a"; ""]
  = Some <$> [critical; critical; high; high; high; high; normal; normal; normal].
Proof. reflexivity. Qed.

(** Scenario 1: the one row of the glucose report is tagged high. *)
Example glucose_report_rows :
  rowStatuses JS.ascii_toUpperCase glucose_report = [Some high].
Proof. reflexivity. Qed.

End LabRows.

(** ** The lab report workflow *)

Module LabFlow.
Import LabReport Samples.

Lemma run_app (sys : Sys) (es1 es2 : list Event) :
  run sys (es1 ++ es2) = run sys es1 ≫= λ sys', run sys' es2.
Proof.
  revert sys. induction es1 as [|e es1 IH]; intros sys; simpl; [done|].
  destruct (step sys e) as [sys'|]; simpl; [apply IH | done].
Qed.

Lemma requestLanguage_code (b : LangButton) :
  requestLanguage (code b) =
    match b with BtnEn => "English" | BtnTe => "Telugu" | BtnHi => "Hindi" end.
Proof. by destruct b. Qed.

Lemma step_lang (sys : Sys) (b : LangButton) :
  showResults (comp sys) = true →
  step sys (ClickLang b) =
    Some {| comp := setOutputLang (code b) (comp sys);
            log := log sys; inflight := inflight sys |}.
Proof.
  intros Hshow. unfold step. cbn [enabled]. rewrite Hshow.
  cbn [react]. unfold issue. cbn [fst snd length].
  by rewrite app_nil_r.
Qed.

Lemma lastLang_cons (l : string) (b : LangButton) (bs : list LangButton) :
  lastLang l (b :: bs) = lastLang (code b) bs.
Proof.
  unfold lastLang. rewrite fmap_cons, last_cons.
  by destruct (last (code <$> bs)).
Qed.

(** Clicking through the language strip of a shown result panel leaves
    everything but [outputLang] as it is. *)
Lemma run_lang_clicks (bs : list LangButton) (sys : Sys) :
  showResults (comp sys) = true →
  run sys (ClickLang <$> bs) =
    Some {| comp := setOutputLang (lastLang (outputLang (comp sys)) bs) (comp sys);
            log := log sys; inflight := inflight sys |}.
Proof.
  revert sys. induction bs as [|b bs IH]; intros sys Hshow.
  - by destruct sys as [[] ? ?].
  - cbn [fmap list_fmap run]. rewrite step_lang by done.
    cbn [mbind option_bind]. rewrite IH; [|exact Hshow].
    cbn [comp log inflight]. f_equal.
    rewrite lastLang_cons. by destruct sys as [[] ? ?].
Qed.

(** C2, as the code has it: upload f, the analysis succeeds, re-analyze,
    the call is rejected; the page then holds the failure message and the
    retained result at once. *)
Lemma failed_reanalyze_keeps_result :
  (sys ← run (start "en")
         [FileChange (Some report_pdf); Resolved glucose_report;
          ClickReanalyze; Rejected network_down];
   Some (error (comp sys), result (comp sys), loading (comp sys)))
  = Some (Some "Network Error", Some glucose_report, false).
Proof. vm_compute. reflexivity. Qed.

Lemma step_upload (sys : Sys) (f : File) :
  step sys (FileChange (Some f)) =
    Some {| comp := (handleUpload (Some f) (setFiles (Some f) (comp sys))).1;
            log := log sys ++ [PostAnalyzeLab f (requestLanguage (outputLang (comp sys)))];
            inflight := S (inflight sys) |}.
Proof. done. Qed.

(** C2, amended: the page holds the cells [result], [loading] and [error],
    and its phase is read off them.  For every file selection that carries
    a file, from any state, the page enters Pending with [result] and
    [error] cleared; every event it accepts there leads to Pending (another
    selection), to Succeeded (the call resolved) or to Failed without a
    result (the call was rejected), so Pending is never skipped.
    Re-analyze keeps the previous result while Pending, and a rejected
    re-analyze ends with the failure message next to the retained
    result. *)
Theorem upload_passes_through_pending (sys : Sys) (f : File) :
  ∃ p, step sys (FileChange (Some f)) = Some p
    ∧ phase (comp p) = Pending
    ∧ result (comp p) = None ∧ error (comp p) = None
    ∧ fileName (comp p) = name f
    ∧ (∀ d, ∃ q, step p (Resolved d) = Some q
          ∧ phase (comp q) = Succeeded ∧ result (comp q) = Some d)
    ∧ (∀ err, ∃ q m, step p (Rejected err) = Some q
          ∧ phase (comp q) = Failed ∧ error (comp q) = Some m ∧ m ≠ "")
    ∧ (∀ e q, step p e = Some q →
          phase (comp q) ∈ [Pending; Succeeded; Failed])
    ∧ (∀ d, ∃ r, run p [Resolved d; ClickReanalyze] = Some r
          ∧ phase (comp r) = Pending ∧ result (comp r) = Some d
          ∧ ∀ err, ∃ q m, step r (Rejected err) = Some q
              ∧ phase (comp q) = FailedWithResult
              ∧ result (comp q) = Some d ∧ error (comp q) = Some m).
Proof.
  eexists. split; [apply step_upload|].
  destruct sys as [[l r ld er fn fr] lg n]. cbn.
  repeat split.
  - intros d. eexists. split; [reflexivity|]. done.
  - intros err. eexists _, _. split; [reflexivity|].
    cbn. repeat split.
    destruct (_ =? "") eqn:Hs; [done | by apply String.eqb_neq in Hs].
  - intros e q. unfold step.
    destruct e as [[g|]|b| | | |d|err]; cbn; intros [= <-]; cbn;
      repeat constructor.
  - intros d. eexists. cbn. split; [done|]. repeat split.
    intros err. eexists _, _. split; [reflexivity|]. done.
Qed.

(** Re-analyze from a shown result panel, after any clicks on the language
    strip. *)
Lemma run_lang_clicks_reanalyze (sys : Sys) (bs : list LangButton) :
  showResults (comp sys) = true →
  ∃ sys', run sys ((ClickLang <$> bs) ++ [ClickReanalyze]) = Some sys'
    ∧ log sys' = log sys ++
        match fileRef (comp sys) with
        | Some f => [PostAnalyzeLab f
                       (requestLanguage (lastLang (outputLang (comp sys)) bs))]
        | None => []
        end.
Proof.
  intros Hshow. rewrite run_app, run_lang_clicks by done.
  cbn [mbind option_bind run]. unfold step. cbn [enabled comp].
  replace (showResults (setOutputLang _ (comp sys))) with true by done.
  eexists. split; [done|].
  cbn [react]. unfold issue, handleReanalyze.
  destruct sys as [[l r ld er fn [f|]] lg n]; done.
Qed.

(** C3: in every state in which the result panel is shown, re-analyze
    (after any number of clicks on the language strip) issues one request
    with the file held by the file input and the long name of the output
    language selected last, and issues nothing when the input holds no
    file.  The file held is the one selected originally: after the upload
    of [f] has succeeded, whatever language [bs] selects since, the
    re-analyze request is for [f] in that language, next to the original
    request in the language of that time. *)
Theorem reanalyze_request :
  (∀ (sys : Sys) (bs : list LangButton),
     showResults (comp sys) = true →
     ∃ sys', run sys ((ClickLang <$> bs) ++ [ClickReanalyze]) = Some sys'
       ∧ log sys' = log sys ++
           match fileRef (comp sys) with
           | Some f => [PostAnalyzeLab f
                          (requestLanguage (lastLang (outputLang (comp sys)) bs))]
           | None => []
           end)
  ∧ (∀ (sys : Sys) (f : File) (d : LabResult) (bs : list LangButton),
       ∃ sys', run sys (FileChange (Some f) :: Resolved d
                          :: (ClickLang <$> bs) ++ [ClickReanalyze]) = Some sys'
         ∧ log sys' = log sys ++
             [PostAnalyzeLab f (requestLanguage (outputLang (comp sys)));
              PostAnalyzeLab f
                (requestLanguage (lastLang (outputLang (comp sys)) bs))])
  ∧ (∀ b : LangButton,
       requestLanguage (code b) =
         match b with
         | BtnEn => "English" | BtnTe => "Telugu" | BtnHi => "Hindi"
         end).
Proof.
  split; [exact run_lang_clicks_reanalyze|]. split; [|exact requestLanguage_code].
  intros sys f d bs.
  cbn [run]. rewrite step_upload. cbn [mbind option_bind].
  unfold step at 1. cbn [enabled inflight Nat.eqb negb mbind option_bind react].
  match goal with |- context [run ?s _] =>
    destruct (run_lang_clicks_reanalyze s bs) as (sys' & Hrun & Hlog); [done|]
  end.
  exists sys'. split; [exact Hrun|]. rewrite Hlog.
  destruct sys as [[l r ld er fn fr] lg n]. cbn. by rewrite <- app_assoc.
Qed.

Lemma reanalyze_request_witness :
  ∃ sys', run {| comp := resolved glucose_report
                           (handleUpload (Some report_pdf)
                              (setFiles (Some report_pdf) (init "en"))).1;
                 log := [PostAnalyzeLab report_pdf "English"];
                 inflight := 0 |}
              ((ClickLang <$> [BtnHi; BtnTe]) ++ [ClickReanalyze]) = Some sys'
    ∧ log sys' = [PostAnalyzeLab report_pdf "English";
                  PostAnalyzeLab report_pdf "Telugu"].
Proof.
  exact (proj1 reanalyze_request
           {| comp := resolved glucose_report
                        (handleUpload (Some report_pdf)
                           (setFiles (Some report_pdf) (init "en"))).1;
              log := [PostAnalyzeLab report_pdf "English"];
              inflight := 0 |}
           [BtnHi; BtnTe] eq_refl).
Defined.

End LabFlow.

(** ** Both document workflows: language switch and reset *)

Module Documents.
Import Samples.

(** C7: on either document page, in every state in which the result panel
    (and with it the language strip) is shown, a click on the strip is
    accepted, issues no request, leaves the number of calls in flight and
    every cell but [outputLang] as they are, the stored result among them,
    and sets [outputLang] to the code of the button. *)
Theorem language_switch_keeps_result :
  (∀ (sys : LabReport.Sys) (b : LangButton),
     LabReport.showResults (LabReport.comp sys) = true →
     ∃ sys', LabReport.step sys (LabReport.ClickLang b) = Some sys'
       ∧ LabReport.log sys' = LabReport.log sys
       ∧ LabReport.inflight sys' = LabReport.inflight sys
       ∧ LabReport.comp sys' =
           LabReport.setOutputLang (code b) (LabReport.comp sys)
       ∧ LabReport.result (LabReport.comp sys') =
           LabReport.result (LabReport.comp sys)
       ∧ LabReport.showResults (LabReport.comp sys') = true)
  ∧ (∀ (sys : Prescription.Sys) (b : LangButton),
       Prescription.showResults (Prescription.comp sys) = true →
       ∃ sys', Prescription.step sys (Prescription.ClickLang b) = Some sys'
         ∧ Prescription.log sys' = Prescription.log sys
         ∧ Prescription.inflight sys' = Prescription.inflight sys
         ∧ Prescription.comp sys' =
             Prescription.setOutputLang (code b) (Prescription.comp sys)
         ∧ Prescription.result (Prescription.comp sys') =
             Prescription.result (Prescription.comp sys)
         ∧ Prescription.showResults (Prescription.comp sys') = true).
Proof.
  split.
  - intros sys b Hshow. unfold LabReport.step. cbn [LabReport.enabled].
    rewrite Hshow. eexists. split; [done|].
    cbn. rewrite app_nil_r. by repeat split.
  - intros sys b Hshow. unfold Prescription.step. cbn [Prescription.enabled].
    rewrite Hshow. eexists. split; [done|].
    cbn. rewrite app_nil_r. by repeat split.
Qed.

Lemma language_switch_keeps_result_witness :
  (∃ sys', LabReport.step lab_done (LabReport.ClickLang BtnTe) = Some sys'
     ∧ LabReport.log sys' = LabReport.log lab_done
     ∧ LabReport.inflight sys' = 0
     ∧ LabReport.comp sys' =
         LabReport.setOutputLang "te" (LabReport.comp lab_done)
     ∧ LabReport.result (LabReport.comp sys') = Some glucose_report
     ∧ LabReport.showResults (LabReport.comp sys') = true)
  ∧ (∃ sys', Prescription.step rx_done (Prescription.ClickLang BtnHi) = Some sys'
       ∧ Prescription.log sys' = Prescription.log rx_done
       ∧ Prescription.inflight sys' = 0
       ∧ Prescription.comp sys' =
           Prescription.setOutputLang "hi" (Prescription.comp rx_done)
       ∧ Prescription.result (Prescription.comp sys') = Some rx_scan
       ∧ Prescription.showResults (Prescription.comp sys') = true).
Proof.
  split.
  - exact (proj1 language_switch_keeps_result lab_done BtnTe eq_refl).
  - exact (proj2 language_switch_keeps_result rx_done BtnHi eq_refl).
Defined.

(** No event of the lab page clears what a selection has left in the
    cells. *)
Lemma lab_step_touched (sys sys' : LabReport.Sys) (e : LabReport.Event) :
  LabReport.touched (LabReport.comp sys) = true →
  LabReport.step sys e = Some sys' →
  LabReport.touched (LabReport.comp sys') = true.
Proof.
  unfold LabReport.step.
  destruct (LabReport.enabled sys e); [|done]. intros Ht [= <-].
  destruct sys as [[l r ld er fn fr] lg n].
  destruct e as [[g|]|b| | | |d|err]; try done.
  - unfold LabReport.handleReanalyze; cbn. by destruct fr.
  - unfold LabReport.touched; cbn. apply orb_true_r.
Qed.

Lemma lab_run_touched (es : list LabReport.Event) (sys sys' : LabReport.Sys) :
  LabReport.touched (LabReport.comp sys) = true →
  LabReport.run sys es = Some sys' →
  LabReport.touched (LabReport.comp sys') = true.
Proof.
  revert sys. induction es as [|e es IH]; intros sys Ht; cbn [LabReport.run].
  - by intros [= <-].
  - destruct (LabReport.step sys e) as [sys1|] eqn:Hstep; [|done].
    cbn [mbind option_bind]. apply IH. by eapply lab_step_touched.
Qed.

Lemma touched_not_idle (s : LabReport.State) :
  LabReport.touched s = true → LabReport.phase s ≠ LabReport.Idle.
Proof.
  unfold LabReport.touched, LabReport.phase.
  destruct (LabReport.loading s); [done|].
  destruct (LabReport.error s), (LabReport.result s); done.
Qed.

(** While a lab result is shown, no event brings the upload zone back. *)
Lemma lab_result_stays_shown (sys sys' : LabReport.Sys) (e : LabReport.Event) :
  LabReport.showResults (LabReport.comp sys) = true →
  LabReport.step sys e = Some sys' →
  LabReport.showUploadZone (LabReport.comp sys') = false.
Proof.
  unfold LabReport.step.
  destruct (LabReport.enabled sys e); [|done]. intros Hshow [= <-].
  destruct sys as [[l [r|] ld er fn fr] lg n]; [|done].
  destruct e as [[g|]|b| | | |d|err]; try done.
  unfold LabReport.handleReanalyze; cbn. by destruct fr.
Qed.

(** C9: on the prescription page, "Upload Another" (shown with a result)
    and "Try Again" (shown with an error) are accepted, issue no request
    and clear [result] and [error]; with no call in flight the upload zone
    is shown again.  On the lab page no sequence of events leads from a
    state in which a cell is set ([loading], [result] or [error]) to one
    in which none is, and while a result is shown no event brings the
    upload zone back: there is no way back to Idle.  Of the three buttons
    under a lab result, "Download" and "Alert doctor" do nothing, and
    re-analyze keeps the result in place. *)
Theorem reset_only_on_prescription :
  (∀ sys : Prescription.Sys,
     Prescription.showResults (Prescription.comp sys) = true →
     ∃ sys', Prescription.step sys Prescription.ClickUploadAnother = Some sys'
       ∧ Prescription.result (Prescription.comp sys') = None
       ∧ Prescription.error (Prescription.comp sys') = None
       ∧ Prescription.log sys' = Prescription.log sys
       ∧ Prescription.showUploadZone (Prescription.comp sys') = true)
  ∧ (∀ sys : Prescription.Sys,
       Prescription.showError (Prescription.comp sys) = true →
       Prescription.loading (Prescription.comp sys) = false →
       ∃ sys', Prescription.step sys Prescription.ClickTryAgain = Some sys'
         ∧ Prescription.result (Prescription.comp sys') = None
         ∧ Prescription.error (Prescription.comp sys') = None
         ∧ Prescription.log sys' = Prescription.log sys
         ∧ Prescription.showUploadZone (Prescription.comp sys') = true)
  ∧ (∀ (sys sys' : LabReport.Sys) (es : list LabReport.Event),
       LabReport.touched (LabReport.comp sys) = true →
       LabReport.run sys es = Some sys' →
       LabReport.touched (LabReport.comp sys') = true
       ∧ LabReport.phase (LabReport.comp sys') ≠ LabReport.Idle)
  ∧ (∀ (sys sys' : LabReport.Sys) (e : LabReport.Event),
       LabReport.showResults (LabReport.comp sys) = true →
       LabReport.step sys e = Some sys' →
       LabReport.showUploadZone (LabReport.comp sys') = false)
  ∧ (∀ sys : LabReport.Sys,
       LabReport.react sys LabReport.ClickDownload = sys
       ∧ LabReport.react sys LabReport.ClickAlertDoctor = sys)
  ∧ (∀ sys : LabReport.Sys,
       LabReport.showResults (LabReport.comp sys) = true →
       ∃ sys', LabReport.step sys LabReport.ClickReanalyze = Some sys'
         ∧ LabReport.result (LabReport.comp sys') =
             LabReport.result (LabReport.comp sys)).
Proof.
  split; [|split; [|split; [|split; [|split]]]].
  - intros sys Hshow. unfold Prescription.step. cbn [Prescription.enabled].
    rewrite Hshow. eexists. split; [done|].
    destruct sys as [[l r ld er fn fr] lg n]. cbn in *.
    rewrite app_nil_r. repeat split.
    apply andb_true_iff in Hshow as [_ Hld]. by destruct ld.
  - intros sys Herr Hld. unfold Prescription.step. cbn [Prescription.enabled].
    rewrite Herr. eexists. split; [done|].
    destruct sys as [[l r ld er fn fr] lg n]. cbn in *.
    rewrite app_nil_r. repeat split. by rewrite Hld.
  - intros sys sys' es Ht Hrun.
    pose proof (lab_run_touched es sys sys' Ht Hrun) as Ht'.
    split; [done|]. apply touched_not_idle, Ht'.
  - exact lab_result_stays_shown.
  - by intros sys.
  - intros sys Hshow. unfold LabReport.step. cbn [LabReport.enabled].
    rewrite Hshow. eexists. split; [done|].
    destruct sys as [[l r ld er fn [f|]] lg n]; done.
Qed.

Lemma reset_only_on_prescription_witness :
  (∃ sys', Prescription.step rx_done Prescription.ClickUploadAnother = Some sys'
     ∧ Prescription.result (Prescription.comp sys') = None
     ∧ Prescription.error (Prescription.comp sys') = None
     ∧ Prescription.log sys' = Prescription.log rx_done
     ∧ Prescription.showUploadZone (Prescription.comp sys') = true)
  ∧ (∃ sys', Prescription.step rx_failed Prescription.ClickTryAgain = Some sys'
       ∧ Prescription.result (Prescription.comp sys') = None
       ∧ Prescription.error (Prescription.comp sys') = None
       ∧ Prescription.log sys' = Prescription.log rx_failed
       ∧ Prescription.showUploadZone (Prescription.comp sys') = true)
  ∧ (LabReport.touched (LabReport.comp lab_failed_again) = true
       ∧ LabReport.phase (LabReport.comp lab_failed_again) ≠ LabReport.Idle)
  ∧ LabReport.showUploadZone
      (LabReport.comp (LabReport.react lab_done (LabReport.FileChange None)))
    = false
  ∧ (∃ sys', LabReport.step lab_done LabReport.ClickReanalyze = Some sys'
       ∧ LabReport.result (LabReport.comp sys') = Some glucose_report).
Proof.
  pose proof reset_only_on_prescription
    as (Another & Again & Lab & Shown & _ & Keep).
  repeat apply conj.
  - exact (Another rx_done eq_refl).
  - exact (Again rx_failed eq_refl eq_refl).
  - exact (proj1 (Lab lab_done lab_failed_again
                    [LabReport.ClickReanalyze; LabReport.Rejected network_down;
                     LabReport.FileChange None] eq_refl eq_refl)).
  - exact (proj2 (Lab lab_done lab_failed_again
                    [LabReport.ClickReanalyze; LabReport.Rejected network_down;
                     LabReport.FileChange None] eq_refl eq_refl)).
  - exact (Shown lab_done _ (LabReport.FileChange None) eq_refl eq_refl).
  - exact (Keep lab_done eq_refl).
Defined.

End Documents.

(** ** The follow-up page *)

Module FollowUpFlow.
Import FollowUp Samples.

(** The two success messages can be told apart whatever the SID is. *)
Lemma demo_message_distinct (sid : string) :
  "✅ Check-in triggered (Twilio not configured — demo mode)"
  ≠ "✅ Check-in sent (SID: " +:+ sid +:+ ")".
Proof. cbn. discriminate. Qed.

(** C4: from any state of the page, when the [sendCheckin] call issued by
    the trigger handler resolves, the attempt is recorded with [ok: true]
    and the loading flag is dropped.
    Without a [message_sid] (absent, or the empty string) the message is
    the demo-mode text; with one it is "Check-in sent (SID: ...)" around
    the SID.  The demo-mode text differs from every SID message. *)
Theorem checkin_success_message (sys : Sys) (r : CheckinResult) :
  ∃ sys', step (react sys ClickTrigger) (CheckinResolved r) = Some sys'
    ∧ checkinLoading (comp sys') = false
    ∧ checkinStatus (comp sys') =
        Some {| ok := true;
                msg := match message_sid r with
                       | None | Some "" =>
                           "✅ Check-in triggered (Twilio not configured — demo mode)"
                       | Some sid => "✅ Check-in sent (SID: " +:+ sid +:+ ")"
                       end |}
    ∧ ∀ sid : string,
        "✅ Check-in triggered (Twilio not configured — demo mode)"
        ≠ "✅ Check-in sent (SID: " +:+ sid +:+ ")".
Proof.
  eexists. split; [reflexivity|]. split; [done|].
  split; [|exact demo_message_distinct].
  cbn. do 2 f_equal. unfold sentMessage.
  destruct r as [[[|c sid]|]]; done.
Qed.

(** C5, as the code has it: the check-in fails with HTTP 400 and detail
    "Twilio not configured"; the recorded message is not that detail. *)
Lemma checkin_failure_message_prefixed :
  (sys ← run (start "en") [ClickTrigger; CheckinRejected twilio_400];
   checkinStatus (comp sys))
  = Some {| ok := false; msg := "⚠️ Twilio not configured" |}
  ∧ "⚠️ Twilio not configured" ≠ "Twilio not configured".
Proof. split; [vm_compute; reflexivity | discriminate]. Qed.

(** C5, amended: from any state of the page, when the [sendCheckin] call
    issued by the trigger handler is rejected, the attempt is recorded with
    [ok: false] and the message is the warning sign and a space followed
    by: the detail of the response
    when it has a non-empty one; else the message of the error when that
    is non-empty; else the fixed text "Check-in failed — Twilio credentials
    may be missing". *)
Theorem checkin_failure_message (sys : Sys) (err : AxiosError) :
  ∃ sys', step (react sys ClickTrigger) (CheckinRejected err) = Some sys'
    ∧ checkinLoading (comp sys') = false
    ∧ checkinStatus (comp sys') =
        Some {| ok := false;
                msg := "⚠️ " +:+
                  match detail_of err with
                  | Some (String c d) => String c d
                  | _ =>
                      match message err with
                      | String c m => String c m
                      | "" => "Check-in failed — Twilio credentials may be missing"
                      end
                  end |}.
Proof.
  eexists. split; [reflexivity|]. split; [done|].
  cbn [comp checkinStatus react checkinRejected setCheckinLoading
       setCheckinStatus]. do 2 f_equal.
  unfold failedMessage, JS.or_str.
  destruct (detail_of err) as [[|c d]|]; cbn [String.eqb]; try done.
  all: destruct (message err) as [|c' m]; done.
Qed.

(** C6, as the code has it: submitting the untouched form, whose phone and
    name are empty, calls [enrollPatient]. *)
Lemma empty_enrollment_is_sent :
  phone (enrollForm (init "en")) = ""
  ∧ name (enrollForm (init "en")) = ""
  ∧ (log <$> step (start "en") SubmitEnroll)
    = Some [PostCheckinEnroll "" "" "English" ""].
Proof. repeat split. Qed.

(** C6, amended: every submission of the enrollment form is accepted and
    calls [enrollPatient] with the phone, name, language and doctor phone
    of the draft as they are, empty or not; nothing is validated on the
    client.  The submission changes no cell: enrollment has no Pending
    state. *)
Theorem enrollment_is_not_validated (sys : Sys) :
  ∃ sys', step sys SubmitEnroll = Some sys'
    ∧ log sys' = log sys ++
        [PostCheckinEnroll (phone (enrollForm (comp sys)))
                           (name (enrollForm (comp sys)))
                           (language (enrollForm (comp sys)))
                           (doctorPhone (enrollForm (comp sys)))]
    ∧ comp sys' = comp sys.
Proof. eexists. split; [reflexivity|]. done. Qed.

(** C10: whatever the state of the page, [handleTriggerCheckin] issues
    exactly one request, [sendCheckin] with phone "+919999999999" and name
    "Ravi Kumar"; its language is "Telugu" when [chatLang] is "te", "Hindi"
    when it is "hi", and "English" otherwise. *)
Theorem checkin_request_is_fixed (s : State) :
  (handleTriggerCheckin s).2 =
    [PostCheckinSend "+919999999999" "Ravi Kumar"
       (if bool_decide (chatLang s = "te") then "Telugu"
        else if bool_decide (chatLang s = "hi") then "Hindi"
        else "English")].
Proof. reflexivity. Qed.

End FollowUpFlow.

(** ** The dashboard *)

Module DashboardFlow.
Import Dashboard Samples.

(** C8: when the snapshot call made on mount is rejected, the page is
    left exactly as it was first rendered (it has no cell that could hold
    an error) and shows 24, 4, 3 and day 5; when the call resolves, the
    snapshot received replaces the defaults. *)
Theorem dashboard_falls_back (err : AxiosError) (data : DashboardStats) :
  (∃ sys', run start [Mount; Rejected err] = Some sys'
     ∧ comp sys' = init
     ∧ displayed (comp sys') = (24, 4, 3, 5)%Z
     ∧ log sys' = [GetApiDashboard])
  ∧ (∃ sys', run start [Mount; Resolved data] = Some sys'
       ∧ stats (comp sys') = data
       ∧ log sys' = [GetApiDashboard]).
Proof. split; eexists; (split; [reflexivity|]); done. Qed.

End DashboardFlow.

(** ** The lab report page over whole runs *)

Module LabRuns.
Import LabReport Samples.

(** What every accepted event preserves holds along every run. *)
Lemma lab_run_invariant (P : Sys → Prop) :
  (∀ sys e sys', P sys → step sys e = Some sys' → P sys') →
  ∀ es sys sys', P sys → run sys es = Some sys' → P sys'.
Proof.
  intros Hstep es. induction es as [|e es IH]; intros sys sys' HP; cbn [run].
  - by intros [= <-].
  - destruct (step sys e) as [sys1|] eqn:He; [|done]. cbn [mbind option_bind].
    apply IH. by eapply Hstep.
Qed.

Lemma lab_calm_run_invariant (P : Sys → Prop) :
  (∀ sys e sys', P sys → calm sys e = true → step sys e = Some sys' → P sys') →
  ∀ es sys sys',
    P sys → calm_run sys es = true → run sys es = Some sys' → P sys'.
Proof.
  intros Hstep es. induction es as [|e es IH]; intros sys sys' HP;
    cbn [run calm_run].
  - by intros _ [= <-].
  - destruct (step sys e) as [sys1|] eqn:He; [|done]. cbn [mbind option_bind].
    intros [Hc Hrest]%andb_true_iff. apply IH; [|done]. by eapply Hstep.
Qed.

Lemma lab_step_inv (sys sys' : Sys) (e : Event) :
  step sys e = Some sys' → enabled sys e = true ∧ sys' = react sys e.
Proof. unfold step. destruct (enabled sys e); [|done]. by intros [= <-]. Qed.

(** X1: along every run of the lab page from its first render, a stored
    error message is never the empty string, so the error block is shown
    exactly when the cell is set. *)
Theorem lab_error_never_empty (lang : string) (es : list Event) (sys' : Sys) :
  run (start lang) es = Some sys' →
  (∀ m, error (comp sys') = Some m → m ≠ "")
  ∧ showError (comp sys') = bool_decide (is_Some (error (comp sys'))).
Proof.
  intros Hrun.
  assert (∀ m, error (comp sys') = Some m → m ≠ "") as Hne.
  { revert Hrun.
    apply (lab_run_invariant (λ sys, ∀ m, error (comp sys) = Some m → m ≠ ""));
      [|done].
    intros sys e sys1 HP [_ ->]%lab_step_inv.
    destruct sys as [[l r ld er fn fr] lg n].
    destruct e as [[g|]|b| | | |d|err]; cbn in *; try done.
    - destruct fr; cbn; [done | exact HP].
    - intros m [= <-].
      destruct (_ =? "") eqn:Hs; [done | by apply String.eqb_neq in Hs]. }
  split; [exact Hne|].
  unfold showError, JS.truthy_str.
  destruct (error (comp sys')) as [m|]; [|done].
  specialize (Hne m eq_refl). by apply String.eqb_neq in Hne as ->.
Qed.

Lemma lab_error_never_empty_witness :
  (∀ m, error (comp lab_failed_again) = Some m → m ≠ "")
  ∧ showError (comp lab_failed_again)
    = bool_decide (is_Some (error (comp lab_failed_again))).
Proof.
  exact (lab_error_never_empty "en"
           [FileChange (Some report_pdf); Resolved glucose_report;
            ClickReanalyze; Rejected network_down; FileChange None]
           lab_failed_again eq_refl).
Defined.






(** X3: in every state of the lab page exactly one of the upload zone, the
    spinner and the result panel is rendered; the error block is not among
    them and can accompany any of the three. *)
Theorem lab_shows_one_block (s : State) :
  bodyBlocks s ∈ [[true; false; false]; [false; true; false];
                  [false; false; true]].
Proof.
  unfold bodyBlocks, showUploadZone, showLoading, showResults.
  destruct (result s), (loading s); cbn; set_solver.
Qed.

(** X4: along every calm run of the lab page from its first render, at
    most one call is in flight, the spinner is shown exactly while one is,
    and no error is held while the spinner is shown. *)
Theorem lab_calm_runs (lang : string) (es : list Event) (sys' : Sys) :
  calm_run (start lang) es = true →
  run (start lang) es = Some sys' →
  inflight sys' = (if loading (comp sys') then 1 else 0)
  ∧ (loading (comp sys') = true → error (comp sys') = None).
Proof.
  apply (lab_calm_run_invariant
           (λ sys, inflight sys = (if loading (comp sys) then 1 else 0)
                   ∧ (loading (comp sys) = true → error (comp sys) = None)));
    [|done].
  intros sys e sys1 [Hn Herr] Hcalm [Hen ->]%lab_step_inv.
  destruct sys as [[l r ld er fn fr] lg n].
  destruct e as [[g|]|b| | | |d|err]; cbn in *; try done.
  - apply Nat.eqb_eq in Hcalm as ->. done.
  - apply andb_true_iff in Hen as [_ Hld]. destruct ld; [done|].
    rewrite Hn. unfold handleReanalyze; cbn. by destruct fr.
  - destruct ld; rewrite Hn in *; done.
  - destruct ld; rewrite Hn in *; done.
Qed.

Lemma lab_calm_runs_witness :
  inflight lab_failed_again
  = (if loading (comp lab_failed_again) then 1 else 0)
  ∧ (loading (comp lab_failed_again) = true →
     error (comp lab_failed_again) = None).
Proof.
  exact (lab_calm_runs "en"
           [FileChange (Some report_pdf); Resolved glucose_report;
            ClickReanalyze; Rejected network_down; FileChange None]
           lab_failed_again eq_refl eq_refl).
Defined.

(** X5: the lab page does not discard the response of a superseded call.
    When a second file is selected while the first call is in flight, the
    first response to arrive ends the spinner and is shown as the result,
    while the input holds the second file and a call is still in flight;
    the response arriving after it replaces what is shown. *)
Theorem lab_overlapping_uploads (sys : Sys) (f g : File) (d d' : LabResult) :
  ∃ sys1 sys2,
    run sys [FileChange (Some f); FileChange (Some g); Resolved d] = Some sys1
    ∧ showLoading (comp sys1) = false
    ∧ result (comp sys1) = Some d
    ∧ fileRef (comp sys1) = Some g
    ∧ inflight sys1 = S (inflight sys)
    ∧ step sys1 (Resolved d') = Some sys2
    ∧ result (comp sys2) = Some d'.
Proof.
  destruct sys as [[l r ld er fn fr] lg n].
  eexists _, _. cbn. repeat split.
Qed.

End LabRuns.

(** ** The prescription page over whole runs *)

Module RxRuns.
Import Prescription Samples.

Lemma rx_step_inv (sys sys' : Sys) (e : Event) :
  step sys e = Some sys' → enabled sys e = true ∧ sys' = react sys e.
Proof. unfold step. destruct (enabled sys e); [|done]. by intros [= <-]. Qed.

Lemma rx_calm_run_invariant (P : Sys → Prop) :
  (∀ sys e sys', P sys → calm sys e = true → step sys e = Some sys' → P sys') →
  ∀ es sys sys',
    P sys → calm_run sys es = true → run sys es = Some sys' → P sys'.
Proof.
  intros Hstep es. induction es as [|e es IH]; intros sys sys' HP;
    cbn [run calm_run].
  - by intros _ [= <-].
  - destruct (step sys e) as [sys1|] eqn:He; [|done]. cbn [mbind option_bind].
    intros [Hc Hrest]%andb_true_iff. apply IH; [|done]. by eapply Hstep.
Qed.

(** X6: along every calm run of the prescription page from its first
    render, at most one call is in flight and the spinner is shown exactly
    while one is; while it is shown neither a result nor an error is held,
    and otherwise never both. *)
Theorem rx_calm_runs (lang : string) (es : list Event) (sys' : Sys) :
  calm_run (start lang) es = true →
  run (start lang) es = Some sys' →
  inflight sys' = (if loading (comp sys') then 1 else 0)
  ∧ (if loading (comp sys')
     then result (comp sys') = None ∧ error (comp sys') = None
     else result (comp sys') = None ∨ error (comp sys') = None).
Proof.
  apply (rx_calm_run_invariant
           (λ sys, inflight sys = (if loading (comp sys) then 1 else 0)
                   ∧ (if loading (comp sys)
                      then result (comp sys) = None ∧ error (comp sys) = None
                      else result (comp sys) = None ∨ error (comp sys) = None)));
    [|by split; [|left]].
  intros sys e sys1 [Hn Hcells] Hcalm [Hen ->]%rx_step_inv.
  destruct sys as [[l r ld er fn fr] lg n].
  destruct e as [[g|]|b| | |d|err]; cbn in *; try done.
  - apply Nat.eqb_eq in Hcalm as ->. done.
  - destruct ld; [|by split; [|left]].
    destruct Hcells as [_ ->]. done.
  - apply andb_true_iff in Hen as [_ Hld]. destruct ld; [done|].
    by split; [|left].
  - destruct ld; rewrite Hn in *; [|done].
    destruct Hcells as [_ ->]. by split; [|right].
  - destruct ld; rewrite Hn in *; [|done].
    destruct Hcells as [-> _]. by split; [|left].
Qed.

Lemma rx_calm_runs_witness :
  inflight rx_failed = (if loading (comp rx_failed) then 1 else 0)
  ∧ (if loading (comp rx_failed)
     then result (comp rx_failed) = None ∧ error (comp rx_failed) = None
     else result (comp rx_failed) = None ∨ error (comp rx_failed) = None).
Proof.
  exact (rx_calm_runs "en"
           [FileChange (Some report_pdf); Rejected network_down]
           rx_failed eq_refl eq_refl).
Defined.

(** X7: in every state of the prescription page the upload zone is
    rendered exactly when none of the spinner, the error block and the
    result panel is: the page is never blank, and the upload zone never
    accompanies another block. *)
Theorem rx_upload_zone_alone (s : State) :
  showUploadZone s = negb (showLoading s || showError s || showResults s).
Proof.
  unfold showUploadZone, showLoading, showError, showResults.
  destruct (result s), (loading s), (JS.truthy_str (error s)); done.
Qed.

(** X8: the preview of the extracted text is the text itself when it has
    at most 300 code units; in every case it starts with the first 300
    code units of the text and has at most 303. *)
Theorem ocrPreview_bounded {A : Type} (dot : A) (ocr_text : list A) :
  (length (ocrPreview dot ocr_text) ≤ 303)%nat
  ∧ take 300 ocr_text `prefix_of` ocrPreview dot ocr_text
  ∧ (ocrPreview dot ocr_text = ocr_text ∨ (300 < length ocr_text)%nat).
Proof.
  unfold ocrPreview. split; [|split].
  - rewrite length_app, length_take.
    pose proof (Nat.le_min_l 300 (length ocr_text)).
    destruct (300 <? _)%nat; cbn [length]; lia.
  - by apply prefix_app_r.
  - destruct (300 <? length ocr_text)%nat eqn:Hlen.
    + right. by apply Nat.ltb_lt.
    + left. apply Nat.ltb_ge in Hlen. rewrite app_nil_r. by apply take_ge.
Qed.

End RxRuns.

(** ** The follow-up page over whole runs *)

Module FollowUpRuns.
Import FollowUp Samples.

Lemma followup_step_inv (sys sys' : Sys) (e : Event) :
  step sys e = Some sys' → enabled sys e = true ∧ sys' = react sys e.
Proof. unfold step. destruct (enabled sys e); [|done]. by intros [= <-]. Qed.

Lemma followup_run_invariant (P : Sys → Prop) :
  (∀ sys e sys', P sys → step sys e = Some sys' → P sys') →
  ∀ es sys sys', P sys → run sys es = Some sys' → P sys'.
Proof.
  intros Hstep es. induction es as [|e es IH]; intros sys sys' HP; cbn [run].
  - by intros [= <-].
  - destruct (step sys e) as [sys1|] eqn:He; [|done]. cbn [mbind option_bind].
    apply IH. by eapply Hstep.
Qed.

(** X9: along every run of the follow-up page from its first render, at
    most one check-in call is in flight, and the trigger button is
    disabled exactly while one is. *)
Theorem one_checkin_in_flight (lang : string) (es : list Event) (sys' : Sys) :
  run (start lang) es = Some sys' →
  checkins sys' = (if checkinLoading (comp sys') then 1 else 0)
  ∧ enabled sys' ClickTrigger = bool_decide (checkins sys' = 0).
Proof.
  intros Hrun.
  assert (checkins sys' = (if checkinLoading (comp sys') then 1 else 0)) as Hn.
  { revert Hrun.
    apply (followup_run_invariant
             (λ sys, checkins sys = (if checkinLoading (comp sys) then 1 else 0)));
      [|done].
    intros sys e sys1 Hn [Hen ->]%followup_step_inv.
    destruct sys as [[cl it cs ld ef es'] lg n m].
    destruct e; cbn in *; try done.
    - destruct ld; [done|]. by rewrite Hn.
    - destruct ld; rewrite Hn in *; done.
    - destruct ld; rewrite Hn in *; done. }
  split; [done|]. cbn. rewrite Hn. by destruct (checkinLoading _).
Qed.

Lemma one_checkin_in_flight_witness :
  checkins (react (react (start "te") ClickTrigger) SubmitEnroll) = 1
  ∧ enabled (react (react (start "te") ClickTrigger) SubmitEnroll) ClickTrigger
    = false.
Proof.
  exact (one_checkin_in_flight "te" [ClickTrigger; SubmitEnroll]
           (react (react (start "te") ClickTrigger) SubmitEnroll) eq_refl).
Defined.

(** X10: the enrollment form is not guarded against repeated submission:
    from any state, [n] submissions in a row are all accepted, put [n]
    further [enrollPatient] calls in flight with the same draft, and
    change no cell. *)
Theorem repeated_enrollment (sys : Sys) (n : nat) :
  run sys (replicate n SubmitEnroll) =
    Some {| comp := comp sys;
            log := log sys ++
              replicate n
                (PostCheckinEnroll (phone (enrollForm (comp sys)))
                                   (name (enrollForm (comp sys)))
                                   (language (enrollForm (comp sys)))
                                   (doctorPhone (enrollForm (comp sys))));
            checkins := checkins sys;
            enrolls := n + enrolls sys |}.
Proof.
  revert sys. induction n as [|n IH]; intros sys.
  - destruct sys; cbn. by rewrite app_nil_r.
  - cbn [replicate run]. unfold step. cbn [enabled mbind option_bind].
    rewrite IH. destruct sys as [s lg c en]; cbn.
    by rewrite <- app_assoc, Nat.add_succ_r.
Qed.

Lemma checkinLanguage_known (l : string) :
  checkinLanguage l ∈ ["English"; "Telugu"; "Hindi"].
Proof.
  unfold checkinLanguage. repeat case_bool_decide; set_solver.
Qed.

(** X11: along every run of the follow-up page from its first render,
    every request issued is either the check-in for "+919999999999" and
    "Ravi Kumar" in "English", "Telugu" or "Hindi", or an enrollment whose
    language is "English" and whose doctor phone is empty: the form has no
    control for either, and the chat language does not reach it. *)
Theorem followup_requests (lang : string) (es : list Event) (sys' : Sys) :
  run (start lang) es = Some sys' →
  Forall followup_request (log sys')
  ∧ language (enrollForm (comp sys')) = "English"
  ∧ doctorPhone (enrollForm (comp sys')) = "".
Proof.
  apply (followup_run_invariant
           (λ sys, Forall followup_request (log sys)
                   ∧ language (enrollForm (comp sys)) = "English"
                   ∧ doctorPhone (enrollForm (comp sys)) = ""));
    [|by split; [constructor|]].
  intros sys e sys1 (Hlog & Hl & Hd) [_ ->]%followup_step_inv.
  destruct sys as [[cl it cs ld ef es'] lg n m].
  destruct e; cbn in *; try done.
  - split; [|done]. apply Forall_app. split; [done|].
    constructor; [|done]. cbn. repeat split. apply checkinLanguage_known.
  - split; [|done]. apply Forall_app. split; [done|].
    constructor; [|done]. done.
Qed.

Lemma followup_requests_witness :
  Forall followup_request
    [PostCheckinSend "+919999999999" "Ravi Kumar" "Telugu";
     PostCheckinEnroll "+91" "" "English" ""]
  ∧ language (enrollForm (comp (react (react (react (start "te") ClickTrigger)
                                        (TypePhone "+91")) SubmitEnroll)))
    = "English"
  ∧ doctorPhone (enrollForm (comp (react (react (react (start "te") ClickTrigger)
                                           (TypePhone "+91")) SubmitEnroll)))
    = "".
Proof.
  exact (followup_requests "te" [ClickTrigger; TypePhone "+91"; SubmitEnroll]
           (react (react (react (start "te") ClickTrigger) (TypePhone "+91"))
              SubmitEnroll) eq_refl).
Defined.

(** X12: the two sub-workflows of the follow-up page do not touch each
    other: an event of the check-in trigger leaves the enrollment draft,
    the enrollment status and the enrollment calls in flight as they are,
    and an event of the enrollment form leaves the check-in status, the
    check-in loading flag, the chat language and the check-in calls in
    flight as they are. *)
Theorem followup_flows_independent (sys sys' : Sys) (e : Event) :
  step sys e = Some sys' →
  (checkinEvent e = true →
     enrollForm (comp sys') = enrollForm (comp sys)
     ∧ enrollStatus (comp sys') = enrollStatus (comp sys)
     ∧ enrolls sys' = enrolls sys)
  ∧ (enrollEvent e = true →
       checkinStatus (comp sys') = checkinStatus (comp sys)
       ∧ checkinLoading (comp sys') = checkinLoading (comp sys)
       ∧ chatLang (comp sys') = chatLang (comp sys)
       ∧ checkins sys' = checkins sys).
Proof.
  intros [_ ->]%followup_step_inv. destruct sys as [[cl it cs ld ef es'] lg n m].
  destruct e; cbn; done.
Qed.

Lemma followup_flows_independent_witness :
  enrollForm (comp (react (start "en") ClickTrigger)) = enrollForm (init "en")
  ∧ enrollStatus (comp (react (start "en") ClickTrigger)) = None
  ∧ enrolls (react (start "en") ClickTrigger) = 0.
Proof.
  exact (proj1 (followup_flows_independent (start "en")
                  (react (start "en") ClickTrigger) ClickTrigger eq_refl)
           eq_refl).
Defined.

End FollowUpRuns.

(** ** The pages that load a snapshot *)

Module Snapshots.
Import Samples.

(** X13: the dashboard asks for its snapshot once and never again: a run
    from the first render has at most two events (the mount and the
    settling of the call), its log is the one call or nothing, and the
    figures shown are the defaults unless that call resolved, in which
    case they are the snapshot it returned. *)
Theorem dashboard_asks_once (es : list Dashboard.Event) (sys' : Dashboard.Sys) :
  Dashboard.run Dashboard.start es = Some sys' →
  (length es ≤ 2)%nat
  ∧ Dashboard.log sys' =
      (if Dashboard.mounted sys' then [GetApiDashboard] else [])
  ∧ (Dashboard.comp sys' = Dashboard.init
     ∨ ∃ data, es = [Dashboard.Mount; Dashboard.Resolved data]
               ∧ Dashboard.stats (Dashboard.comp sys') = data).
Proof.
  destruct es as [|e1 [|e2 [|e3 es]]].
  - intros [= <-]. cbn. split; [lia|]. split; [done|]. by left.
  - destruct e1; cbn; try done. intros [= <-]. cbn.
    split; [lia|]. split; [done|]. by left.
  - destruct e1; cbn; try done. destruct e2; cbn; try done.
    + intros [= <-]. cbn. split; [lia|]. split; [done|]. right. by eexists.
    + intros [= <-]. cbn. split; [lia|]. split; [done|]. by left.
  - destruct e1; cbn; try done. destruct e2; cbn; try done.
    all: destruct e3; cbn; done.
Qed.

Lemma dashboard_asks_once_witness :
  (length [Dashboard.Mount; Dashboard.Rejected network_down] ≤ 2)%nat
  ∧ Dashboard.log
      (Dashboard.react (Dashboard.react Dashboard.start Dashboard.Mount)
         (Dashboard.Rejected network_down))
    = [GetApiDashboard]
  ∧ (Dashboard.comp
       (Dashboard.react (Dashboard.react Dashboard.start Dashboard.Mount)
          (Dashboard.Rejected network_down))
     = Dashboard.init
     ∨ ∃ data, [Dashboard.Mount; Dashboard.Rejected network_down]
               = [Dashboard.Mount; Dashboard.Resolved data]
               ∧ Dashboard.stats
                   (Dashboard.comp
                      (Dashboard.react
                         (Dashboard.react Dashboard.start Dashboard.Mount)
                         (Dashboard.Rejected network_down)))
                 = data).
Proof.
  exact (dashboard_asks_once
           [Dashboard.Mount; Dashboard.Rejected network_down]
           (Dashboard.react (Dashboard.react Dashboard.start Dashboard.Mount)
              (Dashboard.Rejected network_down))
           eq_refl).
Defined.

(** X14: what the alerts page shows after its one call: a rejected call
    and a [null] body both leave the three built-in alerts; a body with a
    list under [alerts] shows that list and its length as the count; a
    body without [alerts] stores [undefined], on which the render
    throws. *)
Theorem alerts_after_call :
  (∀ err, Alerts.render ∘ Alerts.comp
          <$> Alerts.run Alerts.start [Alerts.Mount; Alerts.Rejected err]
          = Some (Alerts.render Alerts.init))
  ∧ Alerts.render ∘ Alerts.comp
    <$> Alerts.run Alerts.start [Alerts.Mount; Alerts.Resolved None]
    = Some (Alerts.render Alerts.init)
  ∧ (∀ l, Alerts.render ∘ Alerts.comp
          <$> Alerts.run Alerts.start
                [Alerts.Mount;
                 Alerts.Resolved (Some {| Alerts.data_alerts := Some l |})]
          = Some (Some (length l, l)))
  ∧ Alerts.render ∘ Alerts.comp
    <$> Alerts.run Alerts.start
          [Alerts.Mount;
           Alerts.Resolved (Some {| Alerts.data_alerts := None |})]
    = Some None
  ∧ fst <$> Alerts.render Alerts.init = Some 3%nat.
Proof. repeat split. Qed.

End Snapshots.

(** ** The day timeline of the recovery page *)

Module RecoveryDays.
Import Recovery.

Lemma dayPills_lookup (s : State) (ps : list (Z * DayClass)) (i : nat)
    (p : Z * DayClass) :
  dayPills s = Some ps → ps !! i = Some p →
  p = dayPill (currentDay s) i ∧ (Z.of_nat i < totalDays s)%Z.
Proof.
  unfold dayPills. destruct (_ <? _)%Z; [done|]. intros [= <-].
  rewrite list_lookup_fmap. intros Hi.
  destruct (seq 0 _ !! i) as [k|] eqn:Hk; [|done].
  apply lookup_seq in Hk as [-> Hlt]. cbn in Hi. injection Hi as <-.
  split; [done|]. lia.
Qed.

(** X15: the day timeline of the recovery page has one pill per day of
    [totalDays] (none when that is negative), numbered from 1; along it
    the dots go from done over today to future and never back; at most
    one dot is today's; and a dot is today's exactly when [currentDay]
    lies between 1 and [totalDays]. *)
Theorem day_pills_ordered (s : State) (ps : list (Z * DayClass)) :
  dayPills s = Some ps →
  length ps = Z.to_nat (totalDays s)
  ∧ (∀ i p, ps !! i = Some p → p.1 = (Z.of_nat i + 1)%Z)
  ∧ (∀ i j p q, (i < j)%nat → ps !! i = Some p → ps !! j = Some q →
       (rank p.2 ≤ rank q.2)%nat ∧ ¬ (p.2 = Today ∧ q.2 = Today))
  ∧ (Today ∈ ps.*2 ↔ (1 ≤ currentDay s ≤ totalDays s)%Z).
Proof.
  intros Hps. split; [|split; [|split]].
  - unfold dayPills in Hps. destruct (_ <? _)%Z; [done|].
    injection Hps as <-. by rewrite length_fmap, length_seq.
  - intros i p Hi. by destruct (dayPills_lookup s ps i p Hps Hi) as [-> _].
  - intros i j p q Hij Hi Hj.
    destruct (dayPills_lookup s ps i p Hps Hi) as [-> _].
    destruct (dayPills_lookup s ps j q Hps Hj) as [-> _].
    unfold dayPill; cbn.
    repeat case_match; cbn; try lia; split; try lia; intros [? ?]; try done.
    all: lia.
  - split.
    + intros (p & Hp & Hin)%list_elem_of_fmap.
      apply list_elem_of_lookup in Hin as [i Hi].
      destruct (dayPills_lookup s ps i p Hps Hi) as [-> Hlt].
      unfold dayPill in Hp; cbn in Hp.
      repeat case_match; try done. lia.
    + intros [H1 Hn]. apply list_elem_of_fmap.
      exists (dayPill (currentDay s) (Z.to_nat (currentDay s - 1))).
      split.
      * unfold dayPill; cbn.
        replace (Z.of_nat (Z.to_nat (currentDay s - 1)) + 1)%Z
          with (currentDay s) by lia.
        by rewrite Z.ltb_irrefl, Z.eqb_refl.
      * unfold dayPills in Hps. destruct (_ <? _)%Z; [done|].
        injection Hps as <-. apply list_elem_of_fmap.
        eexists. split; [done|]. apply elem_of_seq. lia.
Qed.

Lemma day_pills_ordered_witness :
  length [(1, Done); (2, Done); (3, Done); (4, Done); (5, Today);
          (6, Future); (7, Future)]%Z = 7%nat
  ∧ (Today ∈ [Done; Done; Done; Done; Today; Future; Future]
     ↔ (1 ≤ 5 ≤ 7)%Z).
Proof.
  pose proof (day_pills_ordered init
                [(1, Done); (2, Done); (3, Done); (4, Done); (5, Today);
                 (6, Future); (7, Future)]%Z eq_refl)
    as (Hlen & _ & _ & Htoday).
  exact (conj Hlen Htoday).
Defined.

End RecoveryDays.

(** ** Routes and URLs *)

Module Routing.
Import App ApiGet.

(** X16: each of the six routes has a page key of its own, and every path
    that is none of them (a trailing slash is enough) gets the key of the
    dashboard. *)
Theorem route_keys :
  (∀ p q, p ∈ routes → q ∈ routes →
     activePageKey p = activePageKey q → p = q)
  ∧ (∀ p, p ∉ routes → activePageKey p = "dashboard")
  ∧ activePageKey "/lab-report/" = "dashboard".
Proof.
  split; [|split; [|done]].
  - intros p q Hp Hq. unfold routes in *.
    repeat (apply elem_of_cons in Hp as [->|Hp]);
      [..|by apply elem_of_nil in Hp];
      repeat (apply elem_of_cons in Hq as [->|Hq]);
      try (by apply elem_of_nil in Hq); done.
  - intros p Hp. unfold activePageKey, routes in *.
    repeat case_bool_decide; subst; try done; exfalso; apply Hp;
      set_solver.
Qed.

Lemma route_keys_witness :
  activePageKey "/settings" = "dashboard".
Proof.
  apply (proj1 (proj2 route_keys) "/settings").
  apply (bool_decide_unpack _). exact I.
Defined.

Lemma unreserved_not_delimiter (c : ascii) :
  unreserved c = true → bool_decide (c ∈ delimiters) = false.
Proof.
  destruct c as [[] [] [] [] [] [] [] []]; vm_compute; done.
Qed.

Lemma hexDigit_not_delimiter (c : ascii) :
  bool_decide (hexDigit (nat_of_ascii c / 16) ∈ delimiters) = false
  ∧ bool_decide (hexDigit (nat_of_ascii c mod 16) ∈ delimiters) = false.
Proof.
  destruct c as [[] [] [] [] [] [] [] []]; vm_compute; done.
Qed.

(** X17: whatever the phone number is, its encoding holds none of the
    characters that structure a URL ([/ ? # & = + : @] and the space): the
    phone cannot add a path segment or a query parameter to the URL of
    [getRecoveryTimeline]. *)
Theorem encoded_phone_has_no_delimiter (phone : string) (c : ascii) :
  c ∈ list_ascii_of_string (encodeURIComponent phone) → c ∉ delimiters.
Proof.
  induction phone as [|b r IH]; cbn [encodeURIComponent].
  - cbn. by intros ?%elem_of_nil.
  - destruct (unreserved b) eqn:Hb; cbn [list_ascii_of_string].
    + intros [->|Hin]%elem_of_cons; [|by apply IH].
      apply unreserved_not_delimiter in Hb. by apply bool_decide_eq_false in Hb.
    + destruct (hexDigit_not_delimiter b) as [H1 H2].
      apply bool_decide_eq_false in H1, H2.
      intros [->|[->|[->|Hin]%elem_of_cons]%elem_of_cons]%elem_of_cons;
        [by apply (bool_decide_unpack _)|done|done|by apply IH].
Qed.

Lemma encoded_phone_has_no_delimiter_witness :
  encodeURIComponent "+91 9999" = "%2B91%209999"
  ∧ ("9"%char ∉ delimiters).
Proof.
  split; [reflexivity|].
  apply (encoded_phone_has_no_delimiter "+91 9999" "9").
  apply (bool_decide_unpack _). exact I.
Defined.










End Routing.
